(** * ebridge.py: the eBridge timetable-frame script

    A shallow embedding of [src/server/Services/ebEmulator/ebridge.py].
    The script is a flat sequence of Python statements that talk to a
    browser object.  Each statement is embedded as a term of a small
    command language ([prog]); the browser, the pages it shows and the
    objects it hands back are an arbitrary environment ([respond],
    [elapse], [obj_str]) over which every theorem is quantified. *)

From Stdlib Require Import ZArith Ascii String.
From stdpp Require Import base tactics option list strings.

Local Open Scope string_scope.
Local Open Scope Z_scope.
Local Open Scope list_scope.

(** ** Python values and exceptions *)

Module Py.

(** A reference to an object that lives outside the script: the browser
    emulator, a page, an element handle, a locator. *)
Definition ref := nat.

(** The Python values the script can hold in a variable or pass along. *)
Inductive pyval :=
| PyNone
| PyBool (b : bool)
| PyStr (s : string)
| PyObj (o : ref).

Inductive exn :=
| SystemExit (code : Z)                  (* raised by sys.exit *)
| IndexError                             (* sys.argv[i] out of range *)
| AttributeError (ty attr : string)      (* attribute of None, a bool or a str *)
| Foreign (cls : string).                (* raised inside the browser library *)

Definition kwargs := list (string * pyval).

(** What the script asks of foreign objects. *)
Inductive call :=
| Construct (cls : string) (args : list pyval) (kw : kwargs)
| GetAttr (o : ref) (attr : string)
| Method (o : ref) (name : string) (args : list pyval) (kw : kwargs).

Inductive response :=
| Returned (v : pyval)
| Raised (e : exn).

(** How a statement ends. *)
Inductive completion :=
| Normal (v : pyval)
| Abrupt (e : exn).

Definition type_name (v : pyval) : string :=
  match v with
  | PyNone => "NoneType"
  | PyBool _ => "bool"
  | PyStr _ => "str"
  | PyObj _ => "object"
  end.

#[global] Instance pyval_eq_dec : EqDecision pyval.
Proof. solve_decision. Defined.

#[global] Instance exn_eq_dec : EqDecision exn.
Proof. solve_decision. Defined.

#[global] Instance call_eq_dec : EqDecision call.
Proof. solve_decision. Defined.

#[global] Instance response_eq_dec : EqDecision response.
Proof. solve_decision. Defined.

#[global] Instance completion_eq_dec : EqDecision completion.
Proof. solve_decision. Defined.

End Py.
Export Py.

(** ** Commands *)

(** [Try body catches handler] is [try: body / except ...: handler]:
    [catches] tells which exceptions the except clause matches.  The
    script never uses it; it is part of the language so that "nothing is
    caught" is a property of the script and not of the notation. *)
Inductive prog :=
| Ret (v : pyval)
| Call (c : call)
| Sleep (secs : Z)                       (* time.sleep(secs) *)
| Print (v : pyval)                      (* print(v) *)
| Raise (e : exn)
| Try (body : prog) (catches : exn -> bool) (handler : exn -> prog)
| Bind (p : prog) (k : pyval -> prog).

Declare Scope prog_scope.
Delimit Scope prog_scope with prog.
Bind Scope prog_scope with prog.

Notation "x <- p ;; q" := (Bind p (fun x => q))
  (at level 100, p at next level, right associativity) : prog_scope.
Notation "p ;;; q" := (Bind p (fun _ => q))
  (at level 100, q at level 200, right associativity) : prog_scope.

(** [sys.argv[i]] *)
Definition sys_argv (argv : list string) (i : nat) : prog :=
  match argv !! i with
  | Some s => Ret (PyStr s)
  | None => Raise IndexError
  end.

(** [sys.exit(code)] *)
Definition sys_exit (code : Z) : prog := Raise (SystemExit code).

(** [v.attr].  None, booleans and strings have none of the attributes the
    script asks for, so looking one up on them raises AttributeError
    before anything reaches the browser. *)
Definition getattr (v : pyval) (attr : string) : prog :=
  match v with
  | PyObj o => Call (GetAttr o attr)
  | _ => Raise (AttributeError (type_name v) attr)
  end.

(** [v.name(args, **kw)] *)
Definition invoke (v : pyval) (name : string) (args : list pyval) (kw : kwargs) : prog :=
  match v with
  | PyObj o => Call (Method o name args kw)
  | _ => Raise (AttributeError (type_name v) name)
  end.

(** ** String literals of the script *)

Module Lit.

(** The double quote, which occurs inside two of the JavaScript snippets. *)
Definition dq : string := String (ascii_of_nat 34) EmptyString.

Definition error_message : string :=
  "Error: Missing username or password arguments".

Definition login_url : string := "https://ebridge.xjtlu.edu.cn".

Definition username_field : string := "#MUA_CODE\.DUMMY\.MENSYS".
Definition password_field : string := "#PASSWORD\.DUMMY\.MENSYS".

Definition submit_button : string :=
  "body > div > form > div:nth-child(9) > div > div > div.sv-panel-body > div > fieldset > div:nth-child(4) > div.sv-col-sm-6.sv-col-sm-push-6 > div > input".

Definition portal_tile : string :=
  "body > div.sv-page-wrapper > div.sv-page-content.sv-container-fluid > div.sv-row > div:nth-child(2) > div > div > div:nth-child(2) > div.sv-list-group.sv-portal-2-col > div > div.sv-tiled-container > div > div > div:nth-child(1) > a".

Definition js_clear_target : string := Eval cbv in
    "document.querySelector(" +:+ dq +:+ portal_tile +:+ dq +:+ ").target = " +:+ dq +:+ dq.

(** The button's accessible name carries two icon-font glyphs from the
    private use area, U+F022 before and U+E260 after; strings hold the
    UTF-8 bytes. *)
Definition utf8 (bytes : list nat) : string :=
  foldr (fun n s => String (ascii_of_nat n) s) EmptyString bytes.

Definition timetables_button : string := Eval cbv in
  utf8 [239; 128; 162]%nat +:+ " Timetables " +:+ utf8 [238; 137; 160]%nat.

Definition js_redirect : string := Eval cbv in
    "window.location = document.querySelector(" +:+ dq +:+ "#collapsible-panel-I7" +:+ dq
    +:+ ").childNodes[3].childNodes[1].childNodes[1].childNodes[0].childNodes[0].childNodes[3].childNodes[5].childNodes[3].childNodes[0].href".

Definition confirm_button : string := "确定".

Definition timetable_tile : string :=
  "body > div.sv-page-wrapper > div.sv-page-content.sv-container-fluid > div.sv-row > div > div:nth-child(2) > div.sv-list-group > div > div > div.sv-row > div > div:nth-child(1) > div > a > div".

Definition js_frame_src : string := "document.getElementById('myFrame').src".

End Lit.

(** ** The script *)

Section Script.
Local Open Scope prog_scope.
Import Lit.

(** Lines 16 to 35: everything after the argument check. *)
Definition automation (username password : pyval) : prog :=
  browser <- Call (Construct "BrowserEmulator" [] [("headless", PyBool false)]) ;;
  invoke browser "start" [] [] ;;;
  invoke browser "visit" [PyStr login_url] [] ;;;
  Sleep 3 ;;;
  page <- getattr browser "focusedpage" ;;
  field <- invoke page "query_selector" [PyStr username_field] [] ;;
  invoke field "fill" [username] [] ;;;
  page <- getattr browser "focusedpage" ;;
  field <- invoke page "query_selector" [PyStr password_field] [] ;;
  invoke field "fill" [password] [] ;;;
  page <- getattr browser "focusedpage" ;;
  button <- invoke page "query_selector" [PyStr submit_button] [] ;;
  invoke button "click" [] [] ;;;
  invoke browser "wait_for_load" [] [] ;;;
  invoke browser "eval_js" [PyStr js_clear_target] [] ;;;
  page <- getattr browser "focusedpage" ;;
  link <- invoke page "query_selector" [PyStr portal_tile] [] ;;
  invoke link "click" [] [] ;;;
  invoke browser "wait_for_load" [] [] ;;;
  page <- getattr browser "focusedpage" ;;
  button <- invoke page "get_by_role" [PyStr "button"] [("name", PyStr timetables_button)] ;;
  invoke button "click" [] [] ;;;
  invoke browser "eval_js" [PyStr js_redirect] [] ;;;
  Sleep 1 ;;;
  page <- getattr browser "focusedpage" ;;
  button <- invoke page "get_by_role" [PyStr "button"] [("name", PyStr confirm_button)] ;;
  invoke button "click" [] [] ;;;
  page <- getattr browser "focusedpage" ;;
  tile <- invoke page "query_selector" [PyStr timetable_tile] [] ;;
  invoke tile "click" [] [] ;;;
  src <- invoke browser "eval_js" [PyStr js_frame_src] [] ;;
  Print src ;;;
  Sleep 2.

(** Lines 7 to 13, followed by the rest of the module.  The two
    assignments of the [if] branch are the binders of the continuation;
    the [else] branch ends in [sys.exit], so nothing follows it. *)
Definition main (argv : list string) : prog :=
  if (2 <? length argv)%nat then
    username <- sys_argv argv 1 ;;
    password <- sys_argv argv 2 ;;
    automation username password
  else
    Print (PyStr error_message) ;;;
    sys_exit 1.

End Script.

(** ** Running a command against a browser *)

(** What an outside observer sees, in order. *)
Inductive event :=
| EvCall (c : call) (r : response)
| EvSleep (secs : Z)
| EvPrint (line : string).

#[global] Instance event_eq_dec : EqDecision event.
Proof. solve_decision. Defined.

Record run_result (world : Type) := RunResult {
  trace : list event;
  completion_of : completion;
  final : world
}.
Arguments RunResult {world} _ _ _.
Arguments trace {world} _.
Arguments completion_of {world} _.
Arguments final {world} _.

Section Run.
(** The environment: the state of the browser and of the site, how a
    call is answered, what goes on while the script sleeps, and how a
    foreign object prints. *)
Context {world : Type}.
Variable respond : world -> call -> response * world.
Variable elapse : world -> Z -> world.
Variable obj_str : ref -> string.

(** [str(v)] *)
Definition py_str (v : pyval) : string :=
  match v with
  | PyNone => "None"
  | PyBool true => "True"
  | PyBool false => "False"
  | PyStr s => s
  | PyObj o => obj_str o
  end.

Definition answer (r : response) : completion :=
  match r with
  | Returned v => Normal v
  | Raised e => Abrupt e
  end.

(** [then_ r r']: the run [r] followed by the run [r'] that started in
    the state [r] ended in. *)
Definition then_ (r r' : run_result world) : run_result world :=
  RunResult (trace r ++ trace r') (completion_of r') (final r').

Fixpoint run (p : prog) (w : world) : run_result world :=
  match p with
  | Ret v => RunResult [] (Normal v) w
  | Call c =>
      let '(r, w') := respond w c in
      RunResult [EvCall c r] (answer r) w'
  | Sleep secs => RunResult [EvSleep secs] (Normal PyNone) (elapse w secs)
  | Print v => RunResult [EvPrint (py_str v)] (Normal PyNone) w
  | Raise e => RunResult [] (Abrupt e) w
  | Try body catches handler =>
      let r := run body w in
      match completion_of r with
      | Normal _ => r
      | Abrupt e =>
          if catches e then then_ r (run (handler e) (final r)) else r
      end
  | Bind p k =>
      let r := run p w in
      match completion_of r with
      | Normal v => then_ r (run (k v) (final r))
      | Abrupt _ => r
      end
  end.

(** [after before p w Q]: once the events [before] have happened, running
    [p] from the state [w] leads to a trace and a completion that satisfy
    [Q]. *)
Definition after (before : list event) (p : prog) (w : world)
    (Q : list event -> completion -> Prop) : Prop :=
  Q (before ++ trace (run p w)) (completion_of (run p w)).

End Run.

(** ** What the process shows to the outside *)

(** Exit status of the interpreter: 0 at the end of the module, the
    argument of [sys.exit], 1 after an uncaught exception of the
    ordinary kind.  Codes outside 0..255, an interrupt from the keyboard
    and a standard output that cannot be flushed are not modelled. *)
Definition exit_status (c : completion) : Z :=
  match c with
  | Normal _ => 0
  | Abrupt (SystemExit code) => code
  | Abrupt _ => 1
  end.

Definition stdout (t : list event) : list string :=
  omap (fun ev => match ev with EvPrint line => Some line | _ => None end) t.

Definition calls (t : list event) : list call :=
  omap (fun ev => match ev with EvCall c _ => Some c | _ => None end) t.

Definition sleeps (t : list event) : list Z :=
  omap (fun ev => match ev with EvSleep secs => Some secs | _ => None end) t.

(** ** Operations, with the objects they act on left out *)

Inductive op :=
| New (cls : string) (args : list pyval) (kw : kwargs)
| Get (attr : string)
| Invoke (name : string) (args : list pyval) (kw : kwargs)
| Pause (secs : Z)
| Output.

#[global] Instance op_eq_dec : EqDecision op.
Proof. solve_decision. Defined.

Definition op_of_call (c : call) : op :=
  match c with
  | Construct cls args kw => New cls args kw
  | GetAttr _ attr => Get attr
  | Method _ name args kw => Invoke name args kw
  end.

Definition op_of (ev : event) : op :=
  match ev with
  | EvCall c _ => op_of_call c
  | EvSleep secs => Pause secs
  | EvPrint _ => Output
  end.

Definition ops {world} (r : run_result world) : list op := op_of <$> trace r.

(** The statements of lines 16 to 35 in order, one entry per operation. *)
Definition script_ops (username password : pyval) : list op :=
  [ New "BrowserEmulator" [] [("headless", PyBool false)];
    Invoke "start" [] [];
    Invoke "visit" [PyStr Lit.login_url] [];
    Pause 3;
    Get "focusedpage";
    Invoke "query_selector" [PyStr Lit.username_field] [];
    Invoke "fill" [username] [];
    Get "focusedpage";
    Invoke "query_selector" [PyStr Lit.password_field] [];
    Invoke "fill" [password] [];
    Get "focusedpage";
    Invoke "query_selector" [PyStr Lit.submit_button] [];
    Invoke "click" [] [];
    Invoke "wait_for_load" [] [];
    Invoke "eval_js" [PyStr Lit.js_clear_target] [];
    Get "focusedpage";
    Invoke "query_selector" [PyStr Lit.portal_tile] [];
    Invoke "click" [] [];
    Invoke "wait_for_load" [] [];
    Get "focusedpage";
    Invoke "get_by_role" [PyStr "button"] [("name", PyStr Lit.timetables_button)];
    Invoke "click" [] [];
    Invoke "eval_js" [PyStr Lit.js_redirect] [];
    Pause 1;
    Get "focusedpage";
    Invoke "get_by_role" [PyStr "button"] [("name", PyStr Lit.confirm_button)];
    Invoke "click" [] [];
    Get "focusedpage";
    Invoke "query_selector" [PyStr Lit.timetable_tile] [];
    Invoke "click" [] [];
    Invoke "eval_js" [PyStr Lit.js_frame_src] [];
    Output;
    Pause 2 ].

Definition main_ops (argv : list string) : list op :=
  match argv with
  | _ :: username :: password :: _ => script_ops (PyStr username) (PyStr password)
  | _ => [Output]
  end.

(** [shaped p l]: whenever [p] runs to its end it performs exactly the
    operations [l], and when an exception cuts it short it has performed
    some first part of [l]. *)
Inductive shaped : prog -> list op -> Prop :=
| shaped_ret v : shaped (Ret v) []
| shaped_call c : shaped (Call c) [op_of_call c]
| shaped_sleep secs : shaped (Sleep secs) [Pause secs]
| shaped_print v : shaped (Print v) [Output]
| shaped_raise e l : shaped (Raise e) l
| shaped_bind p k l1 l2 :
    shaped p l1 -> (forall v, shaped (k v) l2) -> shaped (Bind p k) (l1 ++ l2)
| shaped_let v k l : shaped (k v) l -> shaped (Bind (Ret v) k) l.

(** [no_try p]: no statement of [p] sits inside a [try]. *)
Inductive no_try : prog -> Prop :=
| no_try_ret v : no_try (Ret v)
| no_try_call c : no_try (Call c)
| no_try_sleep secs : no_try (Sleep secs)
| no_try_print v : no_try (Print v)
| no_try_raise e : no_try (Raise e)
| no_try_bind p k : no_try p -> (forall v, no_try (k v)) -> no_try (Bind p k).

(** [raises P p]: every [raise] written in [p] raises an exception in [P]. *)
Inductive raises (P : exn -> Prop) : prog -> Prop :=
| raises_ret v : raises P (Ret v)
| raises_call c : raises P (Call c)
| raises_sleep secs : raises P (Sleep secs)
| raises_print v : raises P (Print v)
| raises_raise e : P e -> raises P (Raise e)
| raises_bind p k : raises P p -> (forall v, raises P (k v)) -> raises P (Bind p k).

(** ** Observations on operations *)

(** Methods that would release a browser session. *)
Definition shutdown_names : list string :=
  ["close"; "stop"; "quit"; "shutdown"; "kill"; "terminate"; "exit"; "__exit__"; "__del__"].

Definition is_shutdown (o : op) : bool :=
  match o with
  | Invoke name _ _ => bool_decide (name ∈ shutdown_names)
  | Get attr => bool_decide (attr ∈ shutdown_names)
  | _ => false
  end.

(** The methods the script calls and the one attribute it reads. *)
Definition script_methods : list string :=
  ["start"; "visit"; "query_selector"; "fill"; "click"; "wait_for_load"; "eval_js";
   "get_by_role"].

Definition is_scripted (o : op) : bool :=
  match o with
  | Invoke name _ _ => bool_decide (name ∈ script_methods)
  | Get attr => bool_decide (attr = "focusedpage")
  | New cls _ _ => bool_decide (cls = "BrowserEmulator")
  | _ => true
  end.

Definition is_new (o : op) : bool :=
  match o with New _ _ _ => true | _ => false end.

Definition is_start (o : op) : bool :=
  match o with Invoke name _ _ => bool_decide (name = "start") | _ => false end.

Definition is_wait (o : op) : bool :=
  match o with Invoke name _ _ => bool_decide (name = "wait_for_load") | _ => false end.

(** Every pause together with the operation right before it. *)
Fixpoint pauses_after (prev : option op) (l : list op) : list (option op * Z) :=
  match l with
  | [] => []
  | Pause secs :: l' => (prev, secs) :: pauses_after (Some (Pause secs)) l'
  | o :: l' => pauses_after (Some o) l'
  end.

(** The operations that follow the first wait for a page load. *)
Fixpoint after_first_wait (l : list op) : list op :=
  match l with
  | [] => []
  | o :: l' => if is_wait o then l' else after_first_wait l'
  end.

Definition attribute_error (e : exn) : Prop :=
  exists ty attr, e = AttributeError ty attr.

(** The constructor call of line 16. *)
Definition new_browser : call :=
  Construct "BrowserEmulator" [] [("headless", PyBool false)].

(** The three pauses of the script, each with the operation it follows. *)
Definition script_pauses : list (option op * Z) :=
  [ (Some (Invoke "visit" [PyStr Lit.login_url] []), 3);
    (Some (Invoke "eval_js" [PyStr Lit.js_redirect] []), 1);
    (Some Output, 2) ].

(** What the statement [browser.focusedpage.<query>(...).<action>(...)]
    got when its three calls returned: the page read, the element found
    on it, and the result of the action. *)
Record found := Found { f_page : ref; f_element : ref; f_result : pyval }.

(** Everything the browser answered over a complete run. *)
Record answers := Answers {
  the_browser : ref;
  r_start : pyval;
  r_visit : pyval;
  username_input : found;
  password_input : found;
  submit_input : found;
  r_wait_login : pyval;
  r_clear_target : pyval;
  portal_link : found;
  r_wait_portal : pyval;
  timetables_btn : found;
  r_redirect : pyval;
  confirm_btn : found;
  timetable_link : found;
  frame_src : pyval
}.

(** The event of [browser.name(args)] returning [a]. *)
Definition on_browser (b : ref) (name : string) (args : list pyval) (a : pyval)
    : list event :=
  [EvCall (Method b name args []) (Returned a)].

(** The three events of [browser.focusedpage.query(...).action(...)]. *)
Definition on_element (b : ref) (query : string) (qargs : list pyval) (qkw : kwargs)
    (action : string) (args : list pyval) (f : found) : list event :=
  [ EvCall (GetAttr b "focusedpage") (Returned (PyObj (f_page f)));
    EvCall (Method (f_page f) query qargs qkw) (Returned (PyObj (f_element f)));
    EvCall (Method (f_element f) action args []) (Returned (f_result f)) ].

(** The trace of lines 16 to 35 when every call returns, statement by
    statement. *)
Definition complete_trace (obj_str : ref -> string) (username password : pyval)
    (ans : answers) : list event :=
  let b := the_browser ans in
  [EvCall new_browser (Returned (PyObj b))]
  ++ on_browser b "start" [] (r_start ans)
  ++ on_browser b "visit" [PyStr Lit.login_url] (r_visit ans)
  ++ [EvSleep 3]
  ++ on_element b "query_selector" [PyStr Lit.username_field] [] "fill" [username]
       (username_input ans)
  ++ on_element b "query_selector" [PyStr Lit.password_field] [] "fill" [password]
       (password_input ans)
  ++ on_element b "query_selector" [PyStr Lit.submit_button] [] "click" []
       (submit_input ans)
  ++ on_browser b "wait_for_load" [] (r_wait_login ans)
  ++ on_browser b "eval_js" [PyStr Lit.js_clear_target] (r_clear_target ans)
  ++ on_element b "query_selector" [PyStr Lit.portal_tile] [] "click" []
       (portal_link ans)
  ++ on_browser b "wait_for_load" [] (r_wait_portal ans)
  ++ on_element b "get_by_role" [PyStr "button"] [("name", PyStr Lit.timetables_button)]
       "click" [] (timetables_btn ans)
  ++ on_browser b "eval_js" [PyStr Lit.js_redirect] (r_redirect ans)
  ++ [EvSleep 1]
  ++ on_element b "get_by_role" [PyStr "button"] [("name", PyStr Lit.confirm_button)]
       "click" [] (confirm_btn ans)
  ++ on_element b "query_selector" [PyStr Lit.timetable_tile] [] "click" []
       (timetable_link ans)
  ++ on_browser b "eval_js" [PyStr Lit.js_frame_src] (frame_src ans)
  ++ [EvPrint (py_str obj_str (frame_src ans)); EvSleep 2].

(** ** Counting the elements the script goes through *)

Definition is_method (name : string) (o : op) : bool :=
  match o with
  | Invoke n _ _ => bool_decide (n = name)
  | _ => false
  end.

(** Each operation with the one right after it. *)
Definition neighbours (l : list op) : list (op * op) := zip l (drop 1 l).

(** Clicks on an element right after [query] found it. *)
Definition found_then_clicked (query : string) (l : list op) : nat :=
  length (filter (fun qa => is_method query qa.1 && is_method "click" qa.2 = true)
            (neighbours l)).

(** Navigations to the address of the link reached along the DOM path of
    line 28. *)
Definition dom_path_steps (l : list op) : nat :=
  length (filter (fun o => o = Invoke "eval_js" [PyStr Lit.js_redirect] []) l).

(** Elements identified by an absolute selector or by a computed DOM path
    that the script goes through. *)
Definition selector_or_path_steps (l : list op) : nat :=
  found_then_clicked "query_selector" l + dom_path_steps l.

(** ** Sample environments and invocations *)

Module Sample.

(** A portal on which everything works: constructors, attribute look-ups
    and element queries hand out a fresh object, [eval_js] gives back a
    string, every other method returns None.  The state counts the
    objects handed out. *)
Definition frame_url : string := "https://timetable.example/frame?week=1".

Definition portal (n : nat) (c : call) : response * nat :=
  match c with
  | Construct _ _ _ => (Returned (PyObj n), S n)
  | GetAttr _ _ => (Returned (PyObj n), S n)
  | Method _ name _ _ =>
      if bool_decide (name = "eval_js") then (Returned (PyStr frame_url), n)
      else if bool_decide (name ∈ ["query_selector"; "get_by_role"])
           then (Returned (PyObj n), S n)
           else (Returned PyNone, n)
  end.

(** A machine on which the browser cannot be launched: the object is
    built, [start] raises. *)
Definition no_launch (n : nat) (c : call) : response * nat :=
  match c with
  | Construct _ _ _ => (Returned (PyObj n), S n)
  | _ => (Raised (Foreign "Error"), n)
  end.

(** Time passing changes nothing in either. *)
Definition idle (n : nat) (secs : Z) : nat := n.

Definition show (o : ref) : string := "<object>".

Definition argv_ok : list string := ["ebridge.py"; "alice"; "secret"].
Definition argv_extra : list string := ["./ebridge.py"; "alice"; "secret"; "--verbose"; "x"].
Definition argv_short : list string := ["ebridge.py"; "alice"].

(** [try: browser.start() / except Exception: pass], to compare with the
    script, which has no such statement. *)
Definition guarded_start (browser : pyval) : prog :=
  Try (invoke browser "start" [] [])
      (fun e => match e with SystemExit _ => false | _ => true end)
      (fun _ => Ret PyNone).

End Sample.


(** ** Further observations on runs *)

(** Operations that reach a foreign object, as opposed to pauses and
    prints. *)
Definition is_call (o : op) : bool :=
  match o with
  | Pause _ | Output => false
  | _ => true
  end.

(** Seconds spent in [time.sleep] over a run. *)
Definition total_sleep (t : list event) : Z := foldr Z.add 0 (sleeps t).

(** Calls whose result the script goes on to use as an object: the
    constructor (line 16), every read of [browser.focusedpage] and every
    element query. *)
Definition is_lookup (c : call) : bool :=
  match c with
  | Construct _ _ _ => true
  | GetAttr _ _ => true
  | Method _ name _ _ => bool_decide (name ∈ ["query_selector"; "get_by_role"])
  end.

(** The attributes the script asks of the result of a look-up. *)
Definition used_as (c : call) : list string :=
  match c with
  | Construct _ _ _ => ["start"]
  | GetAttr _ _ => ["query_selector"; "get_by_role"]
  | Method _ _ _ _ => ["fill"; "click"]
  end.




(** Exceptions of the script's own making: the exit of the argument
    check and the failed attribute look-ups. *)
Definition script_exception (e : exn) : Prop :=
  e = SystemExit 1 \/ attribute_error e.

Module Edge.

(** A portal on which no selector and no role matches anything: element
    queries return None, everything else is as on [Sample.portal]. *)
Definition no_element (n : nat) (c : call) : response * nat :=
  match c with
  | Method _ name _ _ =>
      if bool_decide (name ∈ ["query_selector"; "get_by_role"])
      then (Returned PyNone, n)
      else Sample.portal n c
  | _ => Sample.portal n c
  end.

(** No arguments at all, not even the script name. *)
Definition argv_empty : list string := [].

(** Two empty strings for the credentials. *)
Definition argv_blank : list string := ["ebridge.py"; ""; ""].

End Edge.

(** ** Facts about running commands, for every environment *)

Section RunFacts.
Context {world : Type}.
Variable respond : world -> call -> response * world.
Variable elapse : world -> Z -> world.
Variable obj_str : ref -> string.

Local Abbreviation exec := (run respond elapse obj_str).
Local Abbreviation next := (after respond elapse obj_str).

Lemma run_bind p k w :
  exec (Bind p k) w =
    match completion_of (exec p w) with
    | Normal v => then_ (exec p w) (exec (k v) (final (exec p w)))
    | Abrupt _ => exec p w
    end.
Proof. reflexivity. Qed.

Lemma run_call c w :
  exec (Call c) w =
    RunResult [EvCall c (respond w c).1] (answer (respond w c).1) (respond w c).2.
Proof. simpl. by destruct (respond w c). Qed.

Lemma run_let v k w : exec (Bind (Ret v) k) w = exec (k v) w.
Proof. rewrite run_bind; simpl. by destruct (exec (k v) w). Qed.

Lemma ops_then (r r' : run_result world) : ops (then_ r r') = ops r ++ ops r'.
Proof. unfold ops; simpl. apply fmap_app. Qed.

(** A command performs the operations of its shape, in order. *)
Lemma run_shaped p l :
  shaped p l ->
  forall w,
    match completion_of (exec p w) with
    | Normal _ => ops (exec p w) = l
    | Abrupt _ => ops (exec p w) `prefix_of` l
    end.
Proof.
  induction 1 as [v|c|secs|v|e l|p k l1 l2 _ IHp _ IHk|v k l _ IHk]; intros w.
  - reflexivity.
  - rewrite run_call; unfold ops; simpl.
    destruct (respond w c).1; simpl; [reflexivity|apply reflexivity].
  - reflexivity.
  - reflexivity.
  - apply prefix_nil.
  - rewrite run_bind. specialize (IHp w).
    destruct (completion_of (exec p w)) as [v|e] eqn:Hp.
    + specialize (IHk v (final (exec p w))).
      rewrite ops_then, IHp.
      change (completion_of (then_ (exec p w) (exec (k v) (final (exec p w)))))
        with (completion_of (exec (k v) (final (exec p w)))).
      destruct (completion_of (exec (k v) (final (exec p w)))).
      * by rewrite IHk.
      * by apply prefix_app.
    + rewrite Hp. by apply prefix_app_r.
  - rewrite run_let. apply IHk.
Qed.

Lemma run_shaped_prefix p l w : shaped p l -> ops (exec p w) `prefix_of` l.
Proof.
  intros Hs. pose proof (run_shaped p l Hs w) as H.
  destruct (completion_of (exec p w)); [by rewrite H|done].
Qed.

(** Outside a [try], a call that raises is the last thing that happens
    and its exception is the one the command ends with. *)
Lemma run_no_try p :
  no_try p ->
  forall w c e,
    EvCall c (Raised e) ∈ trace (exec p w) ->
    completion_of (exec p w) = Abrupt e /\
    exists before, trace (exec p w) = before ++ [EvCall c (Raised e)].
Proof.
  induction 1 as [v|c0|secs|v|e0|p k _ IHp _ IHk]; intros w c e Hin.
  - by apply elem_of_nil in Hin.
  - rewrite run_call in Hin |- *; simpl in *.
    apply list_elem_of_singleton in Hin. injection Hin as -> Hr.
    rewrite <- Hr. split; [done|by exists []].
  - simpl in Hin. apply list_elem_of_singleton in Hin. discriminate.
  - simpl in Hin. apply list_elem_of_singleton in Hin. discriminate.
  - by apply elem_of_nil in Hin.
  - rewrite run_bind in Hin |- *.
    destruct (completion_of (exec p w)) as [v|e'] eqn:Hp.
    + simpl in Hin. apply elem_of_app in Hin as [Hin|Hin].
      * apply IHp in Hin as [Habs _]. congruence.
      * apply IHk in Hin as [Hc [before Ht]].
        split; [done|]. exists (trace (exec p w) ++ before).
        simpl. rewrite Ht. by rewrite app_assoc.
    + by apply IHp.
Qed.

(** A command ends abruptly only with an exception some call raised or
    with one a [raise] of its own text raises. *)
Lemma run_raises (P : exn -> Prop) p :
  raises P p ->
  forall w e,
    completion_of (exec p w) = Abrupt e ->
    P e \/ exists c before, trace (exec p w) = before ++ [EvCall c (Raised e)].
Proof.
  induction 1 as [v|c0|secs|v|e0 He0|p k _ IHp _ IHk]; intros w e Hc.
  - discriminate.
  - rewrite run_call in Hc |- *; simpl in *.
    destruct (respond w c0).1 as [v|e']; simplify_eq/=.
    right. by exists c0, [].
  - discriminate.
  - discriminate.
  - simpl in Hc. left. congruence.
  - rewrite run_bind in Hc |- *.
    destruct (completion_of (exec p w)) as [v|e'] eqn:Hp.
    + simpl in Hc. apply IHk in Hc as [?|(c & before & Ht)]; [by left|].
      right. exists c, (trace (exec p w) ++ before).
      simpl. rewrite Ht. by rewrite app_assoc.
    + rewrite Hp in Hc. injection Hc as ->. by apply IHp.
Qed.

(** *** Stepping through a command, one statement at a time *)

Lemma after_bind before p k w Q :
  next before p w (fun t c =>
    match c with
    | Normal v => forall w', next t (k v) w' Q
    | Abrupt e => Q t (Abrupt e)
    end) ->
  next before (Bind p k) w Q.
Proof.
  unfold after. rewrite run_bind.
  destruct (completion_of (exec p w)) as [v|e] eqn:Hp; [|by rewrite Hp].
  intros H. specialize (H (final (exec p w))). simpl. by rewrite app_assoc.
Qed.

Lemma after_call before c w Q :
  (forall a, Q (before ++ [EvCall c a]) (answer a)) -> next before (Call c) w Q.
Proof. intros H. unfold after. rewrite run_call. apply H. Qed.

Lemma after_getattr before x attr w Q :
  (forall o a, x = PyObj o -> Q (before ++ [EvCall (GetAttr o attr) a]) (answer a)) ->
  ((forall o, x <> PyObj o) -> Q before (Abrupt (AttributeError (type_name x) attr))) ->
  next before (getattr x attr) w Q.
Proof.
  intros Hobj Hnot. destruct x as [|b|s|o];
    try (unfold after; simpl; rewrite app_nil_r; by apply Hnot).
  apply after_call. intros a. by apply Hobj.
Qed.

Lemma after_invoke before x name args kw w Q :
  (forall o a, x = PyObj o -> Q (before ++ [EvCall (Method o name args kw) a]) (answer a)) ->
  ((forall o, x <> PyObj o) -> Q before (Abrupt (AttributeError (type_name x) name))) ->
  next before (invoke x name args kw) w Q.
Proof.
  intros Hobj Hnot. destruct x as [|b|s|o];
    try (unfold after; simpl; rewrite app_nil_r; by apply Hnot).
  apply after_call. intros a. by apply Hobj.
Qed.

Lemma after_sleep before secs w Q :
  Q (before ++ [EvSleep secs]) (Normal PyNone) -> next before (Sleep secs) w Q.
Proof. done. Qed.

Lemma after_print before v w Q :
  Q (before ++ [EvPrint (py_str obj_str v)]) (Normal PyNone) -> next before (Print v) w Q.
Proof. done. Qed.

End RunFacts.

(** One statement forward.  A statement that calls into the browser
    leaves a goal for the answer that raises and one for the answer that
    returns; a look-up on a value that is not yet known to be an object
    leaves a third one, for None, a bool or a str. *)
Ltac forward :=
  lazymatch goal with
  | |- after _ _ _ _ (Bind _ _) _ _ => apply after_bind; forward
  | |- after _ _ _ _ (Call _) _ _ => apply after_call; intros [?|?]; cbn [answer app]
  | |- after _ _ _ _ (getattr (PyObj ?o) ?a) _ _ =>
      change (getattr (PyObj o) a) with (Call (GetAttr o a)); forward
  | |- after _ _ _ _ (invoke (PyObj ?o) ?n ?a ?kw) _ _ =>
      change (invoke (PyObj o) n a kw) with (Call (Method o n a kw)); forward
  | |- after _ _ _ _ (getattr _ _) _ _ =>
      apply after_getattr; [intros ? [?|?] ->; cbn [answer app]|intros _; cbn [app]]
  | |- after _ _ _ _ (invoke _ _ _ _) _ _ =>
      apply after_invoke; [intros ? [?|?] ->; cbn [answer app]|intros _; cbn [app]]
  | |- after _ _ _ _ (Sleep _) _ _ => apply after_sleep; cbn [app]
  | |- after _ _ _ _ (Print _) _ _ => apply after_print; cbn [app]
  | |- forall w, after _ _ _ _ _ _ _ => intros ?; forward
  end.

(** As [forward], but the goal for a look-up on a value that is no object
    keeps that fact as the hypothesis [H]. *)
Ltac forward_keeping H :=
  lazymatch goal with
  | |- after _ _ _ _ (Bind _ _) _ _ => apply after_bind; forward_keeping H
  | |- after _ _ _ _ (Call _) _ _ => apply after_call; intros [?|?]; cbn [answer app]
  | |- after _ _ _ _ (getattr (PyObj ?o) ?a) _ _ =>
      change (getattr (PyObj o) a) with (Call (GetAttr o a)); forward_keeping H
  | |- after _ _ _ _ (invoke (PyObj ?o) ?n ?a ?kw) _ _ =>
      change (invoke (PyObj o) n a kw) with (Call (Method o n a kw)); forward_keeping H
  | |- after _ _ _ _ (getattr _ _) _ _ =>
      apply after_getattr; [intros ? [?|?] ->; cbn [answer app]|intros H; cbn [app]]
  | |- after _ _ _ _ (invoke _ _ _ _) _ _ =>
      apply after_invoke; [intros ? [?|?] ->; cbn [answer app]|intros H; cbn [app]]
  | |- after _ _ _ _ (Sleep _) _ _ => apply after_sleep; cbn [app]
  | |- after _ _ _ _ (Print _) _ _ => apply after_print; cbn [app]
  | |- forall w, after _ _ _ _ _ _ _ => intros ?; forward_keeping H
  end.

(** The last event of an explicit trace that has the shape asked for. *)
Ltac in_last :=
  first [apply list_elem_of_further; in_last|apply list_elem_of_here].

(** ** Facts about the text of the script *)

Lemma shaped_step p k o l :
  shaped p [o] -> (forall v, shaped (k v) l) -> shaped (Bind p k) (o :: l).
Proof. intros Hp Hk. exact (shaped_bind p k [o] l Hp Hk). Qed.

Lemma shaped_getattr v attr : shaped (getattr v attr) [Get attr].
Proof. destruct v; constructor. Qed.

Lemma shaped_invoke v name args kw : shaped (invoke v name args kw) [Invoke name args kw].
Proof. destruct v; constructor. Qed.

Lemma no_try_getattr v attr : no_try (getattr v attr).
Proof. destruct v; constructor. Qed.

Lemma no_try_invoke v name args kw : no_try (invoke v name args kw).
Proof. destruct v; constructor. Qed.

Lemma raises_getattr v attr : raises attribute_error (getattr v attr).
Proof. destruct v; constructor; by eexists _, _. Qed.

Lemma raises_invoke v name args kw : raises attribute_error (invoke v name args kw).
Proof. destruct v; constructor; by eexists _, _. Qed.

Create HintDb script discriminated.
#[local] Hint Resolve shaped_getattr shaped_invoke no_try_getattr no_try_invoke
  raises_getattr raises_invoke : script.
#[local] Hint Constructors shaped no_try raises : script.

(** Walk down the statements of the script, one bind at a time. *)
Ltac walk step :=
  repeat (apply step; [solve [auto with script]|intros ?]);
  solve [auto with script].

Lemma automation_shaped username password :
  shaped (automation username password) (script_ops username password).
Proof. unfold automation, script_ops. walk shaped_step. Qed.

Lemma automation_no_try username password : no_try (automation username password).
Proof. unfold automation. walk no_try_bind. Qed.

Lemma automation_raises username password :
  raises attribute_error (automation username password).
Proof. unfold automation. walk (raises_bind attribute_error). Qed.

Lemma main_shaped argv : shaped (main argv) (main_ops argv).
Proof.
  destruct argv as [|a0 [|username [|password rest]]];
    try (apply (shaped_step _ _ Output []); [constructor|intros; constructor]).
  unfold main, sys_argv; simpl.
  do 2 apply shaped_let. apply automation_shaped.
Qed.

Lemma main_no_try argv : no_try (main argv).
Proof.
  unfold main, sys_argv, sys_exit.
  destruct (2 <? length argv)%nat.
  - apply no_try_bind; [destruct (argv !! 1%nat); constructor|intros u].
    apply no_try_bind; [destruct (argv !! 2%nat); constructor|intros p].
    apply automation_no_try.
  - apply no_try_bind; [constructor|intros; constructor].
Qed.

(** *** The two branches of the argument check *)

Section Branches.
Context {world : Type}.
Variable respond : world -> call -> response * world.
Variable elapse : world -> Z -> world.
Variable obj_str : ref -> string.

Local Abbreviation exec := (run respond elapse obj_str).

Lemma run_main_short argv w :
  (length argv <= 2)%nat ->
  exec (main argv) w =
    RunResult [EvPrint Lit.error_message] (Abrupt (SystemExit 1)) w.
Proof.
  intros Hlen. unfold main.
  destruct (Nat.ltb_spec 2 (length argv)) as [?|_]; [lia|]. reflexivity.
Qed.

Lemma run_main_long argv w :
  (2 < length argv)%nat ->
  exists username password,
    argv !! 1%nat = Some username /\ argv !! 2%nat = Some password /\
    main_ops argv = script_ops (PyStr username) (PyStr password) /\
    exec (main argv) w = exec (automation (PyStr username) (PyStr password)) w.
Proof.
  intros Hlen. destruct argv as [|a0 [|username [|password rest]]]; simpl in Hlen; try lia.
  exists username, password. repeat split.
  change (main (a0 :: username :: password :: rest))
    with (Bind (Ret (PyStr username))
            (fun u => Bind (Ret (PyStr password)) (fun p => automation u p))).
  by rewrite !run_let.
Qed.

(** Whatever the browser answers, the automation starts by building the
    emulator. *)
Lemma automation_first_event username password w :
  exists a rest,
    trace (exec (automation username password) w) = EvCall new_browser a :: rest.
Proof.
  unfold automation. rewrite run_bind, run_call. fold new_browser.
  destruct (respond w new_browser).1 as [v|e];
    cbn [completion_of answer then_ trace app]; by eexists _, _.
Qed.

(** Either an exception ends the automation before anything is printed,
    or it runs to its end, and then the last three events are the
    evaluation of the frame's [src], the print of its value and the
    final pause. *)
Lemma automation_steps username password w :
  after respond elapse obj_str [] (automation username password) w (fun t c =>
    (stdout t = [] /\ exists e, c = Abrupt e) \/
    (exists before rest b v,
        t = before ++
          [EvCall (Method b "eval_js" [PyStr Lit.js_frame_src] []) (Returned v);
           EvPrint (py_str obj_str v); EvSleep 2] /\
        t = EvCall new_browser (Returned (PyObj b)) :: rest /\
        stdout t = [py_str obj_str v] /\
        c = Normal PyNone)).
Proof.
  unfold automation.
  repeat (forward; try (left; split; [reflexivity|by eexists])).
  right.
  lazymatch goal with
  | |- exists before rest b v, ?t = _ /\ _ => exists (take 30 t), (drop 1 t)
  end.
  do 2 eexists. repeat split; reflexivity.
Qed.

Lemma automation_outcome username password w :
  let r := exec (automation username password) w in
  (stdout (trace r) = [] /\ exists e, completion_of r = Abrupt e) \/
  (exists before rest b v,
      trace r = before ++
        [EvCall (Method b "eval_js" [PyStr Lit.js_frame_src] []) (Returned v);
         EvPrint (py_str obj_str v); EvSleep 2] /\
      trace r = EvCall new_browser (Returned (PyObj b)) :: rest /\
      stdout (trace r) = [py_str obj_str v] /\
      completion_of r = Normal PyNone).
Proof. exact (automation_steps username password w). Qed.

End Branches.

(** ** Facts about lists of operations *)

Lemma Forall_prefix {A} (P : A -> Prop) (l1 l2 : list A) :
  l1 `prefix_of` l2 -> Forall P l2 -> Forall P l1.
Proof. intros [k ->] H. by apply Forall_app in H as [? _]. Qed.

Lemma filter_prefix {A} (P : A -> Prop) `{!forall x, Decision (P x)} (l1 l2 : list A) :
  l1 `prefix_of` l2 -> filter P l1 `prefix_of` filter P l2.
Proof. intros [k ->]. rewrite filter_app. by apply prefix_app_r. Qed.

Lemma pauses_after_prefix l1 l2 prev :
  l1 `prefix_of` l2 -> pauses_after prev l1 `prefix_of` pauses_after prev l2.
Proof.
  intros [k ->]. revert prev.
  induction l1 as [|o l1 IH]; intros prev; [apply prefix_nil|].
  destruct o; simpl; try apply IH. apply prefix_cons, IH.
Qed.

(** The pauses of a trace are the pauses of its operations. *)
Lemma sleeps_pauses t prev : sleeps t = (pauses_after prev (op_of <$> t)).*2.
Proof.
  revert prev. induction t as [|ev t IH]; intros prev; [done|].
  destruct ev as [c a|secs|line]; simpl.
  - rewrite (IH (Some (op_of_call c))). by destruct c.
  - by rewrite (IH (Some (Pause secs))).
  - by rewrite (IH (Some Output)).
Qed.

Lemma script_ops_no_shutdown username password :
  Forall (fun o => is_scripted o = true /\ is_shutdown o = false)
    (script_ops username password).
Proof. unfold script_ops. repeat constructor. Qed.

Lemma script_ops_headful username password :
  Forall (fun o => forall cls args kw, o = New cls args kw ->
            cls = "BrowserEmulator" /\ args = [] /\ kw = [("headless", PyBool false)])
    (script_ops username password).
Proof.
  unfold script_ops.
  repeat (apply Forall_cons_2; [intros; by simplify_eq|]). apply Forall_nil_2.
Qed.

(** ** The claims *)

Section Claims.
Context {world : Type}.
Variable respond : world -> call -> response * world.
Variable elapse : world -> Z -> world.
Variable obj_str : ref -> string.

Local Abbreviation exec := (run respond elapse obj_str).

Lemma main_ops_prefix argv w : ops (exec (main argv) w) `prefix_of` main_ops argv.
Proof. apply run_shaped_prefix, main_shaped. Qed.

Lemma main_normal_long argv w v :
  completion_of (exec (main argv) w) = Normal v -> (2 < length argv)%nat.
Proof.
  intros Hc. destruct (Nat.ltb_spec 2 (length argv)) as [?|Hshort]; [done|].
  by rewrite run_main_short in Hc.
Qed.

(** The log-in part of the script: when none of the first ten operations
    raises and every look-up among them returns an object, they are the
    ten listed, each on the object the script means. *)
Lemma login_steps username password w :
  after respond elapse obj_str [] (automation username password) w (fun t c =>
    (forall c e, EvCall c (Raised e) ∉ take 10 t) ->
    (forall c v, EvCall c (Returned v) ∈ take 10 t -> is_lookup c = true ->
                 exists o, v = PyObj o) ->
    exists b page1 field1 page2 field2 a1 a2 a3 a4 rest,
        t = [ EvCall new_browser (Returned (PyObj b));
              EvCall (Method b "start" [] []) (Returned a1);
              EvCall (Method b "visit" [PyStr Lit.login_url] []) (Returned a2);
              EvSleep 3;
              EvCall (GetAttr b "focusedpage") (Returned (PyObj page1));
              EvCall (Method page1 "query_selector" [PyStr Lit.username_field] [])
                (Returned (PyObj field1));
              EvCall (Method field1 "fill" [username] []) (Returned a3);
              EvCall (GetAttr b "focusedpage") (Returned (PyObj page2));
              EvCall (Method page2 "query_selector" [PyStr Lit.password_field] [])
                (Returned (PyObj field2));
              EvCall (Method field2 "fill" [password] []) (Returned a4) ] ++ rest).
Proof.
  unfold automation.
  do 10 (let Hnon := fresh "Hnon" in
         forward_keeping Hnon;
         try lazymatch goal with
             | |- (forall c e, _ ∉ _) -> _ =>
                 let H1 := fresh in let H2 := fresh in
                 intros H1 H2; exfalso;
                 first [eapply H1; simpl; in_last
                       |edestruct H2 as [? ?];
                        [simpl; in_last|reflexivity|by eapply Hnon]]
             end).
  intros wlast. unfold after. intros _ _. do 10 eexists. reflexivity.
Qed.

(** Building the emulator comes first and starting it comes next. *)
Lemma automation_starts username password w :
  after respond elapse obj_str [] (automation username password) w (fun t _ =>
    exists a rest,
      t = EvCall new_browser a :: rest /\
      forall b, a = Returned (PyObj b) ->
        exists a' rest', rest = EvCall (Method b "start" [] []) a' :: rest').
Proof.
  unfold automation.
  do 2 (let Hnon := fresh "Hnon" in
        forward_keeping Hnon;
        try lazymatch goal with
            | |- exists a rest, _ =>
                eexists _, _; split; [reflexivity|];
                intros ? ?; simplify_eq;
                first [by eexists _, _|by edestruct Hnon]
            end).
  intros wlast. unfold after.
  eexists _, _; split; [reflexivity|]. intros ? ?; simplify_eq. by eexists _, _.
Qed.

(** A run of the automation that reaches the end has the trace
    [complete_trace] of some answers. *)
Lemma automation_complete_steps username password w :
  after respond elapse obj_str [] (automation username password) w (fun t c =>
    forall v, c = Normal v ->
      exists ans, t = complete_trace obj_str username password ans).
Proof.
  unfold automation.
  repeat (forward; try (intros ? ?; discriminate)).
  intros _ _.
  eexists (Answers _ _ _ (Found _ _ _) (Found _ _ _) (Found _ _ _) _ _ (Found _ _ _) _
             (Found _ _ _) _ (Found _ _ _) (Found _ _ _) _).
  reflexivity.
Qed.

Lemma automation_complete username password w v :
  completion_of (exec (automation username password) w) = Normal v ->
  exists ans,
    trace (exec (automation username password) w)
      = complete_trace obj_str username password ans.
Proof. exact (automation_complete_steps username password w v). Qed.

(** C1.  When fewer than two positional arguments are given, that is
    when [len(sys.argv) <= 2], the script prints the error message and
    nothing else and exits with status 1.  When at least two are given
    it goes on to the automation: the first thing it does is build the
    browser emulator, and the run never shows the error exit's
    behaviour, the message alone on standard output with status 1. *)
Theorem missing_arguments_exit argv w :
  let r := exec (main argv) w in
  ((length argv <= 2)%nat ->
     trace r = [EvPrint Lit.error_message] /\
     stdout (trace r) = [Lit.error_message] /\
     completion_of r = Abrupt (SystemExit 1) /\
     exit_status (completion_of r) = 1) /\
  ((2 < length argv)%nat ->
     (exists a rest, trace r = EvCall new_browser a :: rest) /\
     ~ (stdout (trace r) = [Lit.error_message] /\ exit_status (completion_of r) = 1)).
Proof.
  intros r; subst r; split; intros Hlen.
  - by rewrite run_main_short.
  - destruct (run_main_long respond elapse obj_str argv w Hlen)
      as (username & password & _ & _ & _ & ->).
    split; [apply automation_first_event|].
    intros [Hout Hstatus].
    destruct (automation_outcome respond elapse obj_str (PyStr username) (PyStr password) w)
      as [[Hnone _]|(before & rest & b & v & _ & _ & _ & Hc)].
    + rewrite Hnone in Hout. discriminate.
    + rewrite Hc in Hstatus. discriminate.
Qed.

(** C2.  The script has no [try] statement, so an exception raised by
    any call into the browser is caught nowhere: the call that raised
    is the last event of the run and the run ends with that exception
    uncaught, with exit status 1 unless the exception is a SystemExit.
    The only check the script makes on its own is the one on
    the arguments: once two arguments are there, a run that ends
    abruptly ends with an exception a call raised or with the
    AttributeError of a look-up on a value that is no object. *)
Theorem failures_are_uncaught argv w :
  let r := exec (main argv) w in
  no_try (main argv) /\
  (forall c e,
     EvCall c (Raised e) ∈ trace r ->
     completion_of r = Abrupt e /\
     (exists before, trace r = before ++ [EvCall c (Raised e)]) /\
     ((forall code, e <> SystemExit code) -> exit_status (completion_of r) = 1)) /\
  ((2 < length argv)%nat ->
     forall e, completion_of r = Abrupt e ->
       attribute_error e \/
       exists c before, trace r = before ++ [EvCall c (Raised e)]).
Proof.
  intros r; subst r. split; [apply main_no_try|split].
  - intros c e Hin.
    destruct (run_no_try respond elapse obj_str _ (main_no_try argv) w c e Hin)
      as [Hc Hlast].
    repeat split; [done..|].
    intros Hexit. rewrite Hc.
    destruct e as [code| | |]; [by destruct (Hexit code)|done..].
  - intros Hlen e.
    destruct (run_main_long respond elapse obj_str argv w Hlen)
      as (username & password & _ & _ & _ & ->).
    apply run_raises, automation_raises.
Qed.

(** C3.  On the successful path, the run that reaches the end of the
    script, the last three events are the evaluation of
    [document.getElementById('myFrame').src] by the browser emulator
    the script built, the print of the value [v] this evaluation
    returned, and the final pause; standard output holds that one line,
    [str(v)], which is [v] itself when [v] is a string. *)
Theorem printed_value_is_frame_src argv w v0 :
  let r := exec (main argv) w in
  completion_of r = Normal v0 ->
  exists before rest b v,
    trace r = before ++
      [ EvCall (Method b "eval_js" [PyStr Lit.js_frame_src] []) (Returned v);
        EvPrint (py_str obj_str v);
        EvSleep 2 ] /\
    trace r = EvCall new_browser (Returned (PyObj b)) :: rest /\
    stdout (trace r) = [py_str obj_str v] /\
    (forall s, v = PyStr s -> stdout (trace r) = [s]).
Proof.
  intros r Hc; subst r.
  pose proof (main_normal_long argv w v0 Hc) as Hlen.
  destruct (run_main_long respond elapse obj_str argv w Hlen)
    as (username & password & _ & _ & _ & Hrun).
  rewrite Hrun in Hc |- *.
  destruct (automation_outcome respond elapse obj_str (PyStr username) (PyStr password) w)
    as [[_ [e He]]|(before & rest & b & v & Ht & Hfirst & Hout & _)].
  - congruence.
  - exists before, rest, b, v. repeat split; try done.
    by intros s ->.
Qed.

(** C4, as amended.  With at least two positional arguments, in a run
    in which none of the first ten operations raises and every look-up
    among them (the constructor, the reads of [focusedpage], the two
    [query_selector] calls) returns an object, the script visits the
    log-in page, pauses, and fills [sys.argv[1]] into the element
    [query_selector] returned for the user name selector and
    [sys.argv[2]] into the element it returned for the password
    selector: the run begins with the ten events listed. *)
Theorem credentials_filled argv username password w :
  argv !! 1%nat = Some username ->
  argv !! 2%nat = Some password ->
  let r := exec (main argv) w in
  (forall c e, EvCall c (Raised e) ∉ take 10 (trace r)) ->
  (forall c v, EvCall c (Returned v) ∈ take 10 (trace r) -> is_lookup c = true ->
               exists o, v = PyObj o) ->
  exists b page1 field1 page2 field2 a1 a2 a3 a4 rest,
      trace r =
        [ EvCall new_browser (Returned (PyObj b));
          EvCall (Method b "start" [] []) (Returned a1);
          EvCall (Method b "visit" [PyStr "https://ebridge.xjtlu.edu.cn"] []) (Returned a2);
          EvSleep 3;
          EvCall (GetAttr b "focusedpage") (Returned (PyObj page1));
          EvCall (Method page1 "query_selector" [PyStr "#MUA_CODE\.DUMMY\.MENSYS"] [])
            (Returned (PyObj field1));
          EvCall (Method field1 "fill" [PyStr username] []) (Returned a3);
          EvCall (GetAttr b "focusedpage") (Returned (PyObj page2));
          EvCall (Method page2 "query_selector" [PyStr "#PASSWORD\.DUMMY\.MENSYS"] [])
            (Returned (PyObj field2));
          EvCall (Method field2 "fill" [PyStr password] []) (Returned a4) ] ++ rest.
Proof.
  intros H1 H2 r; subst r.
  assert (2 < length argv)%nat as Hlen by (by eapply lookup_lt_Some).
  destruct (run_main_long respond elapse obj_str argv w Hlen)
    as (u & p & Hu & Hp & _ & ->).
  assert (u = username) as -> by congruence.
  assert (p = password) as -> by congruence.
  exact (login_steps (PyStr username) (PyStr password) w).
Qed.

(** C5.  The operations of any run are a first part of the script's
    fixed sequence, and a run that reaches the end has exactly the trace
    [complete_trace]: the browser is built and started, the log-in page
    visited, two fields filled, the submit button clicked, the load
    waited for; then the script goes through exactly three elements
    identified by an absolute selector or a computed DOM path (it
    clicks the portal tile its selector finds, moves to the address of
    the link a DOM path leads to, clicks the timetable tile its
    selector finds), clicking on the way two buttons found by role and
    name; then it reads the frame's [src] once, prints the value it
    got, pauses and leaves with status 0.  Every fill and click goes to
    the element the query right before it found. *)
Theorem operation_sequence argv username password w v :
  argv !! 1%nat = Some username ->
  argv !! 2%nat = Some password ->
  let r := exec (main argv) w in
  ops r `prefix_of` script_ops (PyStr username) (PyStr password) /\
  (completion_of r = Normal v ->
     (exists ans,
        trace r = complete_trace obj_str (PyStr username) (PyStr password) ans /\
        stdout (trace r) = [py_str obj_str (frame_src ans)]) /\
     ops r = script_ops (PyStr username) (PyStr password) /\
     selector_or_path_steps (after_first_wait (ops r)) = 3%nat /\
     found_then_clicked "get_by_role" (after_first_wait (ops r)) = 2%nat /\
     exit_status (completion_of r) = 0).
Proof.
  intros H1 H2 r; subst r.
  assert (2 < length argv)%nat as Hlen by (by eapply lookup_lt_Some).
  destruct (run_main_long respond elapse obj_str argv w Hlen)
    as (u & p & Hu & Hp & Hops & Hrun).
  assert (u = username) as -> by congruence.
  assert (p = password) as -> by congruence.
  pose proof (run_shaped respond elapse obj_str _ _ (main_shaped argv) w) as Hs.
  split.
  { rewrite <- Hops. apply main_ops_prefix. }
  intros Hc. rewrite Hc, Hops in Hs. rewrite Hs, Hc.
  rewrite Hrun in Hc |- *.
  destruct (automation_complete (PyStr username) (PyStr password) w v Hc) as [ans Hans].
  split; [|by repeat split].
  exists ans. by rewrite Hans.
Qed.

(** C6.  Every pause of a run is one of the three [time.sleep] calls of
    the script, in their order: 3 seconds right after the visit of the
    log-in page, 1 second right after the JavaScript redirect to the
    timetable, 2 seconds right after the print.  The list is the same
    for every environment and every argument vector; a run that an
    exception cuts short has made the first ones of them. *)
Theorem pauses_are_fixed argv w :
  let r := exec (main argv) w in
  pauses_after None (ops r) `prefix_of` script_pauses /\
  sleeps (trace r) `prefix_of` [3; 1; 2] /\
  (forall v, completion_of r = Normal v ->
     pauses_after None (ops r) = script_pauses /\ sleeps (trace r) = [3; 1; 2]).
Proof.
  intros r; subst r.
  assert (pauses_after None (main_ops argv) `prefix_of` script_pauses) as Hmain.
  { destruct argv as [|a0 [|u [|p rest]]]; first [apply prefix_nil|done]. }
  assert (pauses_after None (ops (exec (main argv) w)) `prefix_of` script_pauses) as Hpre.
  { etrans; [apply pauses_after_prefix, main_ops_prefix|done]. }
  split; [done|split].
  - rewrite (sleeps_pauses _ None).
    destruct Hpre as [k Hk]. exists (k.*2).
    change [3; 1; 2] with (script_pauses.*2). by rewrite Hk, fmap_app.
  - intros v Hc.
    pose proof (main_normal_long argv w v Hc) as Hlen.
    destruct (run_main_long respond elapse obj_str argv w Hlen)
      as (u & p & _ & _ & Hops & _).
    pose proof (run_shaped respond elapse obj_str _ _ (main_shaped argv) w) as Hs.
    rewrite Hc, Hops in Hs.
    rewrite (sleeps_pauses _ None). fold (ops (exec (main argv) w)).
    by rewrite Hs.
Qed.

(** C7.  The browser session is taken once and never given back: in
    every run the emulator is built at most once and started at most
    once; whenever two arguments are given, building it is the first
    event and, once it is built, starting that very object is the
    second; and every operation of the run is one of the eight methods
    and the one attribute the script names, none of which is a close,
    stop, quit or other shutdown of the browser. *)
Theorem browser_never_released argv w :
  let r := exec (main argv) w in
  Forall (fun o => is_scripted o = true /\ is_shutdown o = false) (ops r) /\
  filter (fun o => is_new o = true) (ops r) `prefix_of` [op_of_call new_browser] /\
  filter (fun o => is_start o = true) (ops r) `prefix_of` [Invoke "start" [] []] /\
  ((2 < length argv)%nat -> exists l, ops r = op_of_call new_browser :: l) /\
  ((2 < length argv)%nat ->
     exists a rest,
       trace r = EvCall new_browser a :: rest /\
       forall b, a = Returned (PyObj b) ->
         exists a' rest', rest = EvCall (Method b "start" [] []) a' :: rest').
Proof.
  intros r; subst r.
  pose proof (main_ops_prefix argv w) as Hpre.
  repeat split.
  - apply (Forall_prefix _ _ _ Hpre).
    destruct argv as [|a0 [|u [|p rest]]];
      first [apply script_ops_no_shutdown|by repeat constructor].
  - etrans; [by apply filter_prefix|].
    destruct argv as [|a0 [|u [|p rest]]]; first [apply prefix_nil|done].
  - etrans; [by apply filter_prefix|].
    destruct argv as [|a0 [|u [|p rest]]]; first [apply prefix_nil|done].
  - intros Hlen.
    destruct (run_main_long respond elapse obj_str argv w Hlen)
      as (u & p & _ & _ & _ & ->).
    destruct (automation_first_event respond elapse obj_str (PyStr u) (PyStr p) w)
      as (a & rest & Ht).
    exists (op_of <$> rest). unfold ops. by rewrite Ht.
  - intros Hlen.
    destruct (run_main_long respond elapse obj_str argv w Hlen)
      as (u & p & _ & _ & _ & ->).
    exact (automation_starts (PyStr u) (PyStr p) w).
Qed.

(** C8.  The browser is never run headless: every construction of a
    foreign object in any run is [BrowserEmulator(headless=False)], and
    whenever two arguments are given this construction takes place, as
    the first operation of the run. *)
Theorem browser_is_headful argv w :
  let r := exec (main argv) w in
  (forall cls args kw a,
     EvCall (Construct cls args kw) a ∈ trace r ->
     cls = "BrowserEmulator" /\ args = [] /\ kw = [("headless", PyBool false)]) /\
  ((2 < length argv)%nat ->
     exists a rest,
       trace r =
         EvCall (Construct "BrowserEmulator" [] [("headless", PyBool false)]) a :: rest).
Proof.
  intros r; subst r; split.
  - intros cls args kw a Hin.
    assert (New cls args kw ∈ main_ops argv) as Hop.
    { eapply elem_of_prefix; [|apply main_ops_prefix].
      unfold ops. apply list_elem_of_fmap.
      by exists (EvCall (Construct cls args kw) a). }
    assert (Forall (fun o => forall cls args kw, o = New cls args kw ->
              cls = "BrowserEmulator" /\ args = [] /\ kw = [("headless", PyBool false)])
              (main_ops argv)) as Hall.
    { destruct argv as [|a0 [|u [|p rest]]];
        first [apply script_ops_headful
              |apply Forall_cons_2; [intros; by simplify_eq|apply Forall_nil_2]]. }
    rewrite Forall_forall in Hall. by eapply Hall.
  - intros Hlen.
    destruct (run_main_long respond elapse obj_str argv w Hlen)
      as (u & p & _ & _ & _ & ->).
    apply automation_first_event.
Qed.

(** C9.  Only [sys.argv[1]] and [sys.argv[2]] matter: two argument
    vectors that agree at these two positions give the same command,
    hence in the same environment the same run, with the same calls to
    the browser, the same output and the same exit status, whatever
    the script name and the further arguments are. *)
Theorem extra_arguments_ignored argv argv' w :
  argv !! 1%nat = argv' !! 1%nat ->
  argv !! 2%nat = argv' !! 2%nat ->
  main argv = main argv' /\
  exec (main argv) w = exec (main argv') w /\
  calls (trace (exec (main argv) w)) = calls (trace (exec (main argv') w)) /\
  stdout (trace (exec (main argv) w)) = stdout (trace (exec (main argv') w)) /\
  exit_status (completion_of (exec (main argv) w)) =
    exit_status (completion_of (exec (main argv') w)).
Proof.
  intros H1 H2.
  assert (main argv = main argv') as ->; [|done].
  assert ((2 <? length argv)%nat = (2 <? length argv')%nat) as Hlen.
  { destruct (argv !! 2%nat) as [p|] eqn:Hp.
    - symmetry in H2.
      apply lookup_lt_Some, Nat.ltb_lt in Hp, H2. congruence.
    - symmetry in H2.
      apply lookup_ge_None, Nat.ltb_ge in Hp, H2. congruence. }
  unfold main, sys_argv. by rewrite Hlen, H1, H2.
Qed.

(** C10.  On the error path, [len(sys.argv) <= 2], the script leaves
    before the browser emulator is built: the run makes no call to any
    foreign object, its only event is the print of the error message,
    and the environment is in the state it was in before the run. *)
Theorem no_browser_on_error_path argv w :
  (length argv <= 2)%nat ->
  let r := exec (main argv) w in
  calls (trace r) = [] /\
  ops r = [Output] /\
  trace r = [EvPrint Lit.error_message] /\
  final r = w.
Proof. intros Hlen r; subst r. by rewrite run_main_short. Qed.

End Claims.

(** ** The claims on sample runs *)

Import Sample.

(** The script on the working portal prints the frame's address and
    leaves with status 0. *)
Example portal_run :
  let r := run portal idle show (main argv_ok) 0%nat in
  stdout (trace r) = [frame_url] /\
  completion_of r = Normal PyNone /\
  exit_status (completion_of r) = 0 /\
  length (trace r) = 33%nat.
Proof. by vm_compute. Qed.

(** Where the browser cannot be launched the run stops at [start]. *)
Example no_launch_run :
  run no_launch idle show (main argv_ok) 0%nat =
    RunResult
      [ EvCall new_browser (Returned (PyObj 0%nat));
        EvCall (Method 0%nat "start" [] []) (Raised (Foreign "Error")) ]
      (Abrupt (Foreign "Error")) 1%nat.
Proof. reflexivity. Qed.

(** A [try] around the call is what it takes to survive it: the guarded
    start ends normally in the same environment. *)
Example guarded_start_survives :
  let r := run no_launch idle show
             (Bind (Call new_browser) (fun browser => guarded_start browser)) 0%nat in
  completion_of r = Normal PyNone /\
  EvCall (Method 0%nat "start" [] []) (Raised (Foreign "Error")) ∈ trace r.
Proof. split; [reflexivity|]. apply list_elem_of_further, list_elem_of_here. Qed.

Lemma missing_arguments_exit_witness :
  ((length argv_short <= 2)%nat /\
   stdout (trace (run portal idle show (main argv_short) 0%nat)) = [Lit.error_message] /\
   exit_status (completion_of (run portal idle show (main argv_short) 0%nat)) = 1) /\
  ((2 < length argv_ok)%nat /\
   exists a rest,
     trace (run portal idle show (main argv_ok) 0%nat) = EvCall new_browser a :: rest).
Proof.
  split.
  - assert (length argv_short <= 2)%nat as Hlen by (simpl; lia).
    split; [exact Hlen|].
    destruct (proj1 (missing_arguments_exit portal idle show argv_short 0%nat) Hlen)
      as (_ & Hout & _ & Hstatus).
    split; [exact Hout|exact Hstatus].
  - assert (2 < length argv_ok)%nat as Hlen by (simpl; lia).
    split; [exact Hlen|].
    exact (proj1 (proj2 (missing_arguments_exit portal idle show argv_ok 0%nat) Hlen)).
Defined.

Lemma failures_are_uncaught_witness :
  EvCall (Method 0%nat "start" [] []) (Raised (Foreign "Error"))
    ∈ trace (run no_launch idle show (main argv_ok) 0%nat) /\
  completion_of (run no_launch idle show (main argv_ok) 0%nat) = Abrupt (Foreign "Error").
Proof.
  assert (EvCall (Method 0%nat "start" [] []) (Raised (Foreign "Error"))
            ∈ trace (run no_launch idle show (main argv_ok) 0%nat)) as Hin.
  { apply list_elem_of_further, list_elem_of_here. }
  split; [exact Hin|].
  exact (proj1 (proj1 (proj2 (failures_are_uncaught no_launch idle show argv_ok 0%nat))
                  _ _ Hin)).
Defined.

Lemma printed_value_is_frame_src_witness :
  completion_of (run portal idle show (main argv_ok) 0%nat) = Normal PyNone /\
  exists before rest b v,
    trace (run portal idle show (main argv_ok) 0%nat) = before ++
      [ EvCall (Method b "eval_js" [PyStr Lit.js_frame_src] []) (Returned v);
        EvPrint (py_str show v);
        EvSleep 2 ] /\
    trace (run portal idle show (main argv_ok) 0%nat)
      = EvCall new_browser (Returned (PyObj b)) :: rest /\
    stdout (trace (run portal idle show (main argv_ok) 0%nat)) = [py_str show v] /\
    (forall s, v = PyStr s ->
       stdout (trace (run portal idle show (main argv_ok) 0%nat)) = [s]).
Proof.
  split; [reflexivity|].
  apply (printed_value_is_frame_src portal idle show argv_ok 0%nat PyNone).
  reflexivity.
Defined.

(** C4 as the claim states it fails: with both arguments given but a
    browser that cannot be launched, nothing is filled. *)
Lemma credentials_not_filled_without_browser :
  (2 < length argv_ok)%nat /\
  argv_ok !! 1%nat = Some "alice" /\
  Invoke "fill" [PyStr "alice"] [] ∉ ops (run no_launch idle show (main argv_ok) 0%nat).
Proof.
  split; [simpl; lia|split; [reflexivity|]].
  apply (bool_decide_unpack _). by vm_compute.
Qed.

Lemma credentials_filled_witness :
  argv_ok !! 1%nat = Some "alice" /\
  argv_ok !! 2%nat = Some "secret" /\
  (forall c e,
     EvCall c (Raised e) ∉ take 10 (trace (run portal idle show (main argv_ok) 0%nat))) /\
  (forall c v,
     EvCall c (Returned v) ∈ take 10 (trace (run portal idle show (main argv_ok) 0%nat)) ->
     is_lookup c = true -> exists o, v = PyObj o) /\
  exists b page1 field1 page2 field2 a1 a2 a3 a4 rest,
    trace (run portal idle show (main argv_ok) 0%nat) =
      [ EvCall new_browser (Returned (PyObj b));
        EvCall (Method b "start" [] []) (Returned a1);
        EvCall (Method b "visit" [PyStr "https://ebridge.xjtlu.edu.cn"] []) (Returned a2);
        EvSleep 3;
        EvCall (GetAttr b "focusedpage") (Returned (PyObj page1));
        EvCall (Method page1 "query_selector" [PyStr "#MUA_CODE\.DUMMY\.MENSYS"] [])
          (Returned (PyObj field1));
        EvCall (Method field1 "fill" [PyStr "alice"] []) (Returned a3);
        EvCall (GetAttr b "focusedpage") (Returned (PyObj page2));
        EvCall (Method page2 "query_selector" [PyStr "#PASSWORD\.DUMMY\.MENSYS"] [])
          (Returned (PyObj field2));
        EvCall (Method field2 "fill" [PyStr "secret"] []) (Returned a4) ] ++ rest.
Proof.
  assert (forall c e,
            EvCall c (Raised e)
              ∉ take 10 (trace (run portal idle show (main argv_ok) 0%nat))) as Hraise.
  { intros c e Hin. vm_compute in Hin.
    repeat (apply elem_of_cons in Hin as [Hin|Hin]; [discriminate|]).
    by apply elem_of_nil in Hin. }
  assert (forall c v,
            EvCall c (Returned v)
              ∈ take 10 (trace (run portal idle show (main argv_ok) 0%nat)) ->
            is_lookup c = true -> exists o, v = PyObj o) as Hobj.
  { intros c v Hin Hl. vm_compute in Hin.
    repeat (apply elem_of_cons in Hin as [Hin|Hin];
            [simplify_eq; first [by vm_compute in Hl|by eexists]|]).
    by apply elem_of_nil in Hin. }
  split; [reflexivity|split; [reflexivity|split; [exact Hraise|split; [exact Hobj|]]]].
  exact (credentials_filled portal idle show argv_ok "alice" "secret" 0%nat
           eq_refl eq_refl Hraise Hobj).
Defined.

Lemma operation_sequence_witness :
  argv_ok !! 1%nat = Some "alice" /\
  argv_ok !! 2%nat = Some "secret" /\
  completion_of (run portal idle show (main argv_ok) 0%nat) = Normal PyNone /\
  (exists ans,
     trace (run portal idle show (main argv_ok) 0%nat)
       = complete_trace show (PyStr "alice") (PyStr "secret") ans /\
     stdout (trace (run portal idle show (main argv_ok) 0%nat))
       = [py_str show (frame_src ans)]) /\
  ops (run portal idle show (main argv_ok) 0%nat)
    = script_ops (PyStr "alice") (PyStr "secret") /\
  selector_or_path_steps (after_first_wait (ops (run portal idle show (main argv_ok) 0%nat)))
    = 3%nat /\
  found_then_clicked "get_by_role"
    (after_first_wait (ops (run portal idle show (main argv_ok) 0%nat))) = 2%nat /\
  exit_status (completion_of (run portal idle show (main argv_ok) 0%nat)) = 0.
Proof.
  split; [reflexivity|split; [reflexivity|split; [reflexivity|]]].
  exact (proj2 (operation_sequence portal idle show argv_ok "alice" "secret" 0%nat PyNone
                  eq_refl eq_refl) eq_refl).
Defined.

Lemma pauses_are_fixed_witness :
  completion_of (run portal idle show (main argv_ok) 0%nat) = Normal PyNone /\
  pauses_after None (ops (run portal idle show (main argv_ok) 0%nat)) = script_pauses /\
  sleeps (trace (run portal idle show (main argv_ok) 0%nat)) = [3; 1; 2].
Proof.
  split; [reflexivity|].
  apply (proj2 (proj2 (pauses_are_fixed portal idle show argv_ok 0%nat)) PyNone).
  reflexivity.
Defined.

Lemma browser_never_released_witness :
  (2 < length argv_ok)%nat /\
  exists a' rest',
    trace (run portal idle show (main argv_ok) 0%nat)
      = EvCall new_browser (Returned (PyObj 0%nat))
          :: EvCall (Method 0%nat "start" [] []) a' :: rest'.
Proof.
  assert (2 < length argv_ok)%nat as Hlen by (simpl; lia).
  split; [exact Hlen|].
  destruct (proj2 (proj2 (proj2 (proj2
              (browser_never_released portal idle show argv_ok 0%nat)))) Hlen)
    as (a & rest & Ht & Hstart).
  assert (a = Returned (PyObj 0%nat)) as Ha.
  { pose proof Ht as Ht'. vm_compute in Ht'. by injection Ht'. }
  destruct (Hstart 0%nat Ha) as (a' & rest' & Hrest).
  exists a', rest'. by rewrite Ht, Ha, Hrest.
Defined.

Lemma browser_is_headful_witness :
  EvCall new_browser (Returned (PyObj 0%nat))
    ∈ trace (run portal idle show (main argv_ok) 0%nat) /\
  "BrowserEmulator" = "BrowserEmulator" /\
  @nil pyval = [] /\
  [("headless", PyBool false)] = [("headless", PyBool false)].
Proof.
  assert (EvCall new_browser (Returned (PyObj 0%nat))
            ∈ trace (run portal idle show (main argv_ok) 0%nat)) as Hin.
  { apply list_elem_of_here. }
  split; [exact Hin|].
  exact (proj1 (browser_is_headful portal idle show argv_ok 0%nat) _ _ _ _ Hin).
Defined.

Lemma extra_arguments_ignored_witness :
  argv_ok !! 1%nat = argv_extra !! 1%nat /\
  argv_ok !! 2%nat = argv_extra !! 2%nat /\
  run portal idle show (main argv_ok) 0%nat = run portal idle show (main argv_extra) 0%nat.
Proof.
  split; [reflexivity|split; [reflexivity|]].
  apply (extra_arguments_ignored portal idle show argv_ok argv_extra 0%nat); reflexivity.
Defined.

Lemma no_browser_on_error_path_witness :
  (length argv_short <= 2)%nat /\
  calls (trace (run portal idle show (main argv_short) 0%nat)) = [] /\
  ops (run portal idle show (main argv_short) 0%nat) = [Output] /\
  trace (run portal idle show (main argv_short) 0%nat) = [EvPrint Lit.error_message] /\
  final (run portal idle show (main argv_short) 0%nat) = 0%nat.
Proof.
  assert (length argv_short <= 2)%nat as Hlen by (simpl; lia).
  split; [exact Hlen|].
  exact (no_browser_on_error_path portal idle show argv_short 0%nat Hlen).
Defined.

(** ** Further properties of the script *)

Lemma calls_ops t : length (calls t) = length (filter (fun o => is_call o = true) (op_of <$> t)).
Proof.
  induction t as [|[c a|secs|line] t IH]; simpl; try done.
  destruct c; rewrite filter_cons_True by done; simpl; by rewrite IH.
Qed.

Lemma raises_mono (P Q : exn -> Prop) p :
  (forall e, P e -> Q e) -> raises P p -> raises Q p.
Proof. intros HPQ. induction 1; constructor; auto. Qed.

Lemma main_raises argv : raises script_exception (main argv).
Proof.
  destruct argv as [|a0 [|username [|password rest]]];
    try (apply raises_bind; [constructor|intros; constructor; by left]).
  apply raises_bind; [constructor|intros u].
  apply raises_bind; [constructor|intros p].
  apply (raises_mono attribute_error); [by right|apply automation_raises].
Qed.

(** The part of a trace before its last event. *)
Ltac split_last :=
  lazymatch goal with
  | |- exists attr before, _ /\ _ /\ ?t = _ => eexists _, (removelast t)
  end.

(** One look-up event of an explicit trace at a time: a call that is no
    look-up, a look-up that returned an object, or the look-up the run
    stopped after. *)
Ltac lookup_leaf :=
  let c := fresh "c" in let v := fresh "v" in
  let Hin := fresh "Hin" in let Hl := fresh "Hl" in let Hno := fresh "Hno" in
  intros c v Hin Hl Hno;
  repeat (apply elem_of_cons in Hin as [Hin|Hin];
          [simplify_eq;
           first [by vm_compute in Hl
                 |by (exfalso; eapply Hno)
                 |split_last;
                  split; [reflexivity|split; [apply (bool_decide_unpack _); by vm_compute
                                             |reflexivity]]]
          |]);
  by apply elem_of_nil in Hin.

Section Further.
Context {world : Type}.
Variable respond : world -> call -> response * world.
Variable elapse : world -> Z -> world.
Variable obj_str : ref -> string.

Local Abbreviation exec := (run respond elapse obj_str).

Lemma sleeps_prefix argv w : sleeps (trace (exec (main argv) w)) `prefix_of` [3; 1; 2].
Proof.
  rewrite (sleeps_pauses _ None).
  assert (pauses_after None (ops (exec (main argv) w)) `prefix_of` script_pauses)
    as [k Hk].
  { etrans; [apply pauses_after_prefix, run_shaped_prefix, main_shaped|].
    destruct argv as [|a0 [|u [|p rest]]]; first [apply prefix_nil|done]. }
  exists (k.*2). change [3; 1; 2] with (script_pauses.*2). by rewrite Hk, fmap_app.
Qed.

Lemma lookup_steps username password w :
  after respond elapse obj_str [] (automation username password) w (fun t c0 =>
    forall c v,
      EvCall c (Returned v) ∈ t -> is_lookup c = true -> (forall o, v <> PyObj o) ->
      exists attr before,
        c0 = Abrupt (AttributeError (type_name v) attr) /\
        attr ∈ used_as c /\
        t = before ++ [EvCall c (Returned v)]).
Proof.
  unfold automation.
  repeat (forward; try lookup_leaf).
Qed.


(** X1.  Whatever the browser answers, the operations of a run are a
    first part of the fixed sequence of the script, so a run makes at
    most 33 operations, at most 30 of them calls to foreign objects,
    and sleeps at most 6 seconds in all. *)
Theorem run_follows_script argv w :
  let r := exec (main argv) w in
  ops r `prefix_of` main_ops argv /\
  (length (trace r) <= 33)%nat /\
  (length (calls (trace r)) <= 30)%nat /\
  0 <= total_sleep (trace r) <= 6.
Proof.
  intros r; subst r.
  pose proof (run_shaped_prefix respond elapse obj_str _ _ w (main_shaped argv)) as Hpre.
  split; [done|split; [|split]].
  - apply prefix_length in Hpre. unfold ops in Hpre. rewrite length_fmap in Hpre.
    etrans; [exact Hpre|].
    destruct argv as [|a0 [|u [|p rest]]]; simpl; lia.
  - rewrite calls_ops.
    apply (filter_prefix (fun o => is_call o = true)), prefix_length in Hpre.
    etrans; [exact Hpre|].
    destruct argv as [|a0 [|u [|p rest]]]; vm_compute; lia.
  - unfold total_sleep.
    destruct (sleeps_prefix argv w) as [k Hk].
    destruct (sleeps (trace (exec (main argv) w))) as [|s1 [|s2 [|s3 [|s4 l]]]];
      simplify_eq/=; lia.
Qed.

(** X2.  [print] is called at most once in a run, and with both
    arguments given only after all 29 calls into the browser have
    returned: a run in which a call raised has printed nothing. *)
Theorem print_after_all_calls argv w :
  let r := exec (main argv) w in
  (length (stdout (trace r)) <= 1)%nat /\
  ((2 < length argv)%nat ->
     stdout (trace r) <> [] ->
     length (calls (trace r)) = 29%nat /\
     forall c a, EvCall c a ∈ trace r -> exists v, a = Returned v).
Proof.
  intros r; subst r.
  destruct (Nat.ltb_spec 2 (length argv)) as [Hlen|Hshort].
  - destruct (run_main_long respond elapse obj_str argv w Hlen)
      as (username & password & _ & _ & _ & ->).
    destruct (automation_outcome respond elapse obj_str (PyStr username) (PyStr password) w)
      as [[Hnone _]|(before & rest & b & v & _ & _ & Hout & Hc)].
    + rewrite Hnone. split; [simpl; lia|]. by intros _ [].
    + rewrite Hout. split; [simpl; lia|]. intros _ _.
      destruct (automation_complete respond elapse obj_str _ _ w _ Hc) as [ans ->].
      split; [reflexivity|].
      intros c a Hin. unfold complete_trace, on_browser, on_element in Hin.
      simpl in Hin.
      repeat (apply elem_of_cons in Hin as [Hin|Hin]; [simplify_eq; by eexists|]).
      by apply elem_of_nil in Hin.
  - rewrite run_main_short by done. split; [simpl; lia|lia].
Qed.

(** X3.  The two reads [sys.argv[1]] and [sys.argv[2]] are always in
    range, whatever the length of the argument vector: a run does not
    end with IndexError unless a call into the browser raised one. *)
Theorem argv_index_in_range argv w :
  let r := exec (main argv) w in
  (forall c, EvCall c (Raised IndexError) ∉ trace r) ->
  completion_of r <> Abrupt IndexError.
Proof.
  intros r Hnone Hc; subst r.
  destruct (run_raises respond elapse obj_str script_exception _ (main_raises argv) w _ Hc)
    as [[?|(ty & attr & ?)]|(c & before & Ht)]; [done..|].
  apply (Hnone c). rewrite Ht. apply elem_of_app. right. apply list_elem_of_here.
Qed.

(** X5.  When the constructor, a read of [browser.focusedpage] or an
    element query returns something that is no object (None when a
    selector matches nothing), the run ends right there: the look-up is
    the last event, and the run ends with the AttributeError of the
    attribute the script asks of the result ([start] of the browser,
    [query_selector] or [get_by_role] of the page, [fill] or [click] of
    the element), with status 1. *)
Theorem non_object_answer_ends_run argv w c v :
  let r := exec (main argv) w in
  EvCall c (Returned v) ∈ trace r ->
  is_lookup c = true ->
  (forall o, v <> PyObj o) ->
  exists attr before,
    completion_of r = Abrupt (AttributeError (type_name v) attr) /\
    attr ∈ used_as c /\
    trace r = before ++ [EvCall c (Returned v)] /\
    exit_status (completion_of r) = 1.
Proof.
  intros r Hin Hl Hno; subst r.
  destruct (Nat.ltb_spec 2 (length argv)) as [Hlen|Hshort].
  - destruct (run_main_long respond elapse obj_str argv w Hlen)
      as (username & password & _ & _ & _ & Hrun).
    rewrite Hrun in Hin |- *.
    destruct (lookup_steps (PyStr username) (PyStr password) w c v Hin Hl Hno)
      as (attr & before & Hc & Hattr & Ht).
    exists attr, before. by rewrite Hc.
  - rewrite run_main_short in Hin by done.
    apply list_elem_of_singleton in Hin. discriminate.
Qed.

(** X6.  The credentials reach the browser through the two [fill] calls
    only: apart from the operations at positions 6 and 9, every
    operation of a run is what it would be for any other user name and
    password. *)
Theorem credentials_only_in_fills argv w i o username' password' :
  let r := exec (main argv) w in
  (2 < length argv)%nat ->
  ops r !! i = Some o ->
  i <> 6%nat -> i <> 9%nat ->
  script_ops username' password' !! i = Some o.
Proof.
  intros r Hlen Hi H6 H9; subst r.
  destruct (run_main_long respond elapse obj_str argv w Hlen)
    as (username & password & _ & _ & Hops & _).
  eapply prefix_lookup_Some in Hi;
    [|apply run_shaped_prefix, main_shaped].
  rewrite Hops in Hi.
  do 33 (destruct i as [|i]; [by simplify_eq/=|]). done.
Qed.


End Further.

(** ** The further properties on sample runs *)

(** With no element found the run stops after the first query. *)
Example no_element_run :
  let r := run Edge.no_element idle show (main argv_ok) 0%nat in
  completion_of r = Abrupt (AttributeError "NoneType" "fill") /\
  length (trace r) = 6%nat /\
  stdout (trace r) = [].
Proof. by vm_compute. Qed.

Lemma print_after_all_calls_witness :
  (2 < length Edge.argv_blank)%nat /\
  stdout (trace (run portal idle show (main Edge.argv_blank) 0%nat)) <> [] /\
  length (calls (trace (run portal idle show (main Edge.argv_blank) 0%nat))) = 29%nat.
Proof.
  assert (2 < length Edge.argv_blank)%nat as Hlen by (simpl; lia).
  assert (stdout (trace (run portal idle show (main Edge.argv_blank) 0%nat)) <> [])
    as Hout by (vm_compute; discriminate).
  split; [exact Hlen|split; [exact Hout|]].
  exact (proj1 (proj2 (print_after_all_calls portal idle show Edge.argv_blank 0%nat)
                  Hlen Hout)).
Defined.

Lemma argv_index_in_range_witness :
  (forall c, EvCall c (Raised IndexError)
               ∉ trace (run portal idle show (main Edge.argv_empty) 0%nat)) /\
  completion_of (run portal idle show (main Edge.argv_empty) 0%nat) <> Abrupt IndexError.
Proof.
  assert (forall c, EvCall c (Raised IndexError)
                      ∉ trace (run portal idle show (main Edge.argv_empty) 0%nat)) as Hnone.
  { intros c Hin. apply list_elem_of_singleton in Hin. discriminate. }
  split; [exact Hnone|].
  exact (argv_index_in_range portal idle show Edge.argv_empty 0%nat Hnone).
Defined.

Lemma non_object_answer_ends_run_witness :
  exists attr before,
    completion_of (run Edge.no_element idle show (main argv_ok) 0%nat)
      = Abrupt (AttributeError "NoneType" attr) /\
    attr ∈ ["fill"; "click"] /\
    trace (run Edge.no_element idle show (main argv_ok) 0%nat)
      = before ++ [EvCall (Method 1%nat "query_selector" [PyStr Lit.username_field] [])
                     (Returned PyNone)] /\
    exit_status (completion_of (run Edge.no_element idle show (main argv_ok) 0%nat)) = 1.
Proof.
  apply (non_object_answer_ends_run Edge.no_element idle show argv_ok 0%nat
           (Method 1%nat "query_selector" [PyStr Lit.username_field] []) PyNone).
  - do 5 apply list_elem_of_further. apply list_elem_of_here.
  - reflexivity.
  - intros o. discriminate.
Defined.

Lemma credentials_only_in_fills_witness :
  (2 < length argv_ok)%nat /\
  ops (run portal idle show (main argv_ok) 0%nat) !! 30%nat
    = Some (Invoke "eval_js" [PyStr Lit.js_frame_src] []) /\
  script_ops (PyStr "bob") (PyStr "hunter2") !! 30%nat
    = Some (Invoke "eval_js" [PyStr Lit.js_frame_src] []).
Proof.
  assert (2 < length argv_ok)%nat as Hlen by (simpl; lia).
  assert (ops (run portal idle show (main argv_ok) 0%nat) !! 30%nat
            = Some (Invoke "eval_js" [PyStr Lit.js_frame_src] [])) as Hi by reflexivity.
  split; [exact Hlen|split; [exact Hi|]].
  apply (credentials_only_in_fills portal idle show argv_ok 0%nat 30%nat _
           (PyStr "bob") (PyStr "hunter2") Hlen Hi); lia.
Defined.
